(** * Hamster (macOS port): configuration store and native storage client

    A shallow embedding of

    - [src/hamster/lib/configuration_macos.py] (class [MacOSConfigStore]) and
    - [src/hamster/client/client_native.py] (class [Storage]),

    together with the properties of these two classes that the
    specification states.  Python objects become explicit state: the
    settings dictionary is a finite map, the plist file, the connected
    signal handlers, the bound target objects and the logger are fields of
    a state record, and a raised exception is a value of [outcome]. *)

From stdpp Require Import gmap strings list fin_maps.
From Stdlib Require Import ZArith Lia.

Local Open Scope string_scope.
Local Open Scope Z_scope.
Local Open Scope list_scope.

(** ** Python values and exceptions *)

Module Py.

(** The values a setting can hold: [None], booleans, integers, strings. *)
Inductive pyval :=
| PNone
| PBool (b : bool)
| PInt (z : Z)
| PStr (s : string).

Inductive pytype := TNoneType | TBool | TInt | TStr.

(** [type(v)] *)
Definition type_of (v : pyval) : pytype :=
  match v with
  | PNone => TNoneType
  | PBool _ => TBool
  | PInt _ => TInt
  | PStr _ => TStr
  end.

(** [isinstance(v, t)]: [bool] is a subclass of [int]. *)
Definition isinstance (v : pyval) (t : pytype) : bool :=
  match type_of v, t with
  | TNoneType, TNoneType => true
  | TBool, TBool => true
  | TBool, TInt => true
  | TInt, TInt => true
  | TStr, TStr => true
  | _, _ => false
  end.

(** [v is None] *)
Definition is_None (v : pyval) : bool :=
  match v with PNone => true | _ => false end.

(** [v != ''] *)
Definition ne_empty_str (v : pyval) : bool :=
  match v with PStr EmptyString => false | _ => true end.

(** The exceptions the two classes raise or let through. *)
Inductive exn :=
| AssertionError (msg : string)
| FactError (msg : string)
| ValueError (msg : string)
| TypeError (msg : string)
| OtherError (msg : string).

(** The result of a call: a returned value or a raised exception. *)
Inductive outcome (A : Type) :=
| Return (a : A)
| Raise (e : exn).
Arguments Return {A} a.
Arguments Raise {A} e.

Global Instance pyval_eq_dec : EqDecision pyval.
Proof. solve_decision. Defined.

Global Instance pytype_eq_dec : EqDecision pytype.
Proof. solve_decision. Defined.

Global Instance exn_eq_dec : EqDecision exn.
Proof. solve_decision. Defined.

End Py.
Import Py.

(** ** [hamster.lib.datetime.time] *)

Module Dt.

(** A time of day, as built by [dt.time(hours, minutes)]. *)
Record time := Time { hour : Z; minute : Z }.

(** The constructor rejects an hour outside 0..23 and a minute outside
    0..59 with [ValueError], the hour being checked first. *)
Definition mk_time (h m : Z) : outcome time :=
  if negb ((0 <=? h) && (h <? 24)) then Raise (ValueError "hour must be in 0..23")
  else if negb ((0 <=? m) && (m <? 60)) then Raise (ValueError "minute must be in 0..59")
  else Return (Time h m).

(** [divmod(v, 60)]: floor division and the matching remainder on
    integers (a boolean counts as 0 or 1); a [TypeError] on anything
    else. *)
Definition divmod60 (v : pyval) : outcome (Z * Z) :=
  match v with
  | PInt z => Return (z `div` 60, z `mod` 60)
  | PBool b => Return ((if b then 1 else 0) `div` 60, (if b then 1 else 0) `mod` 60)
  | PNone | PStr _ => Raise (TypeError "unsupported operand type(s) for divmod()")
  end.

End Dt.

(** ** [MacOSConfigStore] *)

Module MacOSConfigStore.

(** What is found at [_plist_path]: nothing, a file that cannot be
    opened or parsed, or a plist holding a dictionary. *)
Inductive plist_file :=
| NoFile
| Unreadable
| Plist (m : gmap string pyval).

(** What happens when the file is written: [open(.., 'wb')] may fail
    (the file is then untouched), or [plistlib.dump] may fail after the
    file was opened and truncated, or the dictionary is written. *)
Inductive write_outcome := Written | OpenFailed | DumpFailed.

(** The file system as the store sees it: the file and how the next
    write of a given dictionary goes. *)
Record Disk := MkDisk {
  file : plist_file;
  attempt : gmap string pyval -> write_outcome }.

Inductive log_event :=
| LogLoaded (m : gmap string pyval)          (* debug *)
| LogLoadFailed                              (* warning *)
| LogNoPlist                                 (* info *)
| LogConfigLoaded                            (* info *)
| LogSaved (m : gmap string pyval)           (* debug *)
| LogSaveFailed                              (* error *)
| LogUnknownKey (key : string)               (* warning *)
| LogSetting (key : string) (value : pyval)  (* debug *)
| LogTypeMismatch (key : string) (expected got : pytype) (* warning *)
| LogBinding (key : string) (obj : nat) (prop : string). (* debug *)

(** The closure [on_changed] that [bind] connects: it captures [key],
    [obj] and [prop]. *)
Record handler := OnChanged { h_key : string; h_obj : nat; h_prop : string }.

(** The store and the part of the world it acts on. *)
Record state := MkState {
  _settings : gmap string pyval;            (* self._settings *)
  disk : Disk;                              (* the file at self._plist_path *)
  handlers : list handler;                  (* handlers of 'changed', in connection order *)
  objects : gmap (nat * string) pyval;      (* properties of the bind targets *)
  emitted : list (string * pyval);          (* 'changed' emissions so far *)
  logged : list log_event }.                (* records sent to the logger *)

(** The class attribute [_defaults], in the order it is written. *)
Definition _defaults_items : list (string * pyval) :=
  [ ("day-start-minutes", PInt 330); ("last-report-folder", PStr EmptyString) ].

Definition _defaults : gmap string pyval := list_to_map _defaults_items.

Definition log (e : log_event) (s : state) : state :=
  MkState (_settings s) (disk s) (handlers s) (objects s) (emitted s) (logged s ++ [e]).

(** One turn of the merge loop of [_load_settings]:
    [if key not in settings: settings[key] = default_value]. *)
Definition merge_step (settings : gmap string pyval) (kv : string * pyval)
  : gmap string pyval :=
  match settings !! kv.1 with
  | Some _ => settings
  | None => <[kv.1 := kv.2]> settings
  end.

(** [_load_settings]: the dictionary and the log record it produces.
    [_defaults.copy()] is the map itself, maps being values here. *)
Definition _load_settings (d : Disk) : gmap string pyval * log_event :=
  match file d with
  | Plist m => (foldl merge_step m _defaults_items, LogLoaded m)
  | Unreadable => (_defaults, LogLoadFailed)
  | NoFile => (_defaults, LogNoPlist)
  end.

(** [__init__], for a store created in a world with the given disk and
    target objects.  A new object has no handler connected. *)
Definition __init__ (d : Disk) (objs : gmap (nat * string) pyval) : state :=
  let '(settings, ev) := _load_settings d in
  MkState settings d [] objs [] [ev; LogConfigLoaded].

(** Writing the dictionary [m] to the file. *)
Definition plist_write (m : gmap string pyval) (d : Disk) : Disk * bool :=
  match attempt d m with
  | Written => (MkDisk (Plist m) (attempt d), true)
  | OpenFailed => (d, false)
  | DumpFailed => (MkDisk Unreadable (attempt d), false)
  end.

(** [_save_settings]: any exception of the write is caught and logged. *)
Definition _save_settings (s : state) : state :=
  let '(d, ok) := plist_write (_settings s) (disk s) in
  MkState (_settings s) d (handlers s) (objects s) (emitted s)
          (logged s ++ [if ok then LogSaved (_settings s) else LogSaveFailed]).

(** [get(key, default=None)] *)
Definition get (key : string) (default : pyval) (s : state) : pyval * state :=
  let value := match _settings s !! key with Some v => v | None => PNone end in
  if is_None value then
    if negb (is_None default) then (default, s)
    else (match _defaults !! key with Some v => v | None => PNone end,
          log (LogUnknownKey key) s)
  else (value, s).

(** The advisory type check at the head of [set]. *)
Definition type_check (key : string) (value : pyval) (s : state) : state :=
  match _defaults !! key with
  | Some default_value =>
      if negb (isinstance value (type_of default_value)) && ne_empty_str default_value
      then log (LogTypeMismatch key (type_of default_value) (type_of value)) s
      else s
  | None => s
  end.

(** [obj.set_property(prop, value)] on a target that accepts the value. *)
Definition set_property (obj : nat) (prop : string) (value : pyval)
    (objs : gmap (nat * string) pyval) : gmap (nat * string) pyval :=
  <[(obj, prop) := value]> objs.

(** The body of the closure [on_changed]. *)
Definition on_changed (h : handler) (changed_key : string) (new_value : pyval)
    (objs : gmap (nat * string) pyval) : gmap (nat * string) pyval :=
  if decide (changed_key = h_key h)
  then set_property (h_obj h) (h_prop h) new_value objs
  else objs.

(** [self.emit('changed', key, value)]: the handlers run in connection
    order. *)
Definition emit_changed (key : string) (value : pyval) (s : state) : state :=
  MkState (_settings s) (disk s) (handlers s)
          (foldl (fun objs h => on_changed h key value objs) (objects s) (handlers s))
          (emitted s ++ [(key, value)]) (logged s).

Definition store_value (key : string) (value : pyval) (s : state) : state :=
  MkState (<[key := value]> (_settings s)) (disk s) (handlers s) (objects s)
          (emitted s) (logged s).

(** [set(key, value)]; the returned value is always [True]. *)
Definition set (key : string) (value : pyval) (s : state) : bool * state :=
  let s := log (LogSetting key value) s in
  let s := type_check key value s in
  let s := store_value key value s in
  let s := _save_settings s in
  let s := emit_changed key value s in
  (true, s).

(** [self.connect('changed', on_changed)] *)
Definition connect (h : handler) (s : state) : state :=
  MkState (_settings s) (disk s) (handlers s ++ [h]) (objects s) (emitted s) (logged s).

Definition with_objects (objs : gmap (nat * string) pyval) (s : state) : state :=
  MkState (_settings s) (disk s) (handlers s) objs (emitted s) (logged s).

(** [bind(key, obj, prop)] *)
Definition bind (key : string) (obj : nat) (prop : string) (s : state) : state :=
  let s := log (LogBinding key obj prop) s in
  let '(value, s) := get key PNone s in
  let s := with_objects (set_property obj prop value (objects s)) s in
  connect (OnChanged key obj prop) s.

(** The property [day_start]. *)
Definition day_start (s : state) : outcome Dt.time * state :=
  let '(day_start_minutes, s) := get "day-start-minutes" PNone s in
  match Dt.divmod60 day_start_minutes with
  | Return (hours, minutes) => (Dt.mk_time hours minutes, s)
  | Raise e => (Raise e, s)
  end.

(** A client's calls on the store, and the state after a sequence of
    them. *)
Inductive call :=
| CallGet (key : string) (default : pyval)
| CallSet (key : string) (value : pyval)
| CallBind (key : string) (obj : nat) (prop : string)
| CallDayStart.

Definition step (s : state) (c : call) : state :=
  match c with
  | CallGet key default => (get key default s).2
  | CallSet key value => (set key value s).2
  | CallBind key obj prop => bind key obj prop s
  | CallDayStart => (day_start s).2
  end.

Definition run (calls : list call) (s : state) : state := foldl step s calls.

(** [targets k t h]: the handler [h] reacts to key [k] and writes the
    property [t]. *)
Definition targets (k : string) (t : nat * string) (h : handler) : bool :=
  bool_decide (h_key h = k) && bool_decide ((h_obj h, h_prop h) = t).

(** What [plistlib.dump] accepts among the values of [pyval]: there is
    no plist form of [None]. *)
Definition dumpable (m : gmap string pyval) : bool :=
  bool_decide (map_Forall (fun _ v => v <> PNone) m).

(** A writable file: the write fails only inside [plistlib.dump]. *)
Definition writable_attempt (m : gmap string pyval) : write_outcome :=
  if dumpable m then Written else DumpFailed.

(** A file that cannot be opened for writing. *)
Definition readonly_attempt (m : gmap string pyval) : write_outcome := OpenFailed.

(** The dictionary last written to the file with success, if the file
    holds one: the state known to be good. *)
Definition last_known_good (s : state) : option (gmap string pyval) :=
  match file (disk s) with
  | Plist m => Some m
  | NoFile | Unreadable => None
  end.

(** The specification's sentence on [set], for one call: the value is
    stored, the whole dictionary is in the file, the notification is
    published and [get] reads the value back. *)
Definition set_as_specified (key : string) (value : pyval) (s : state) : Prop :=
  let r := set key value s in
  r.1 = true /\
  _settings r.2 !! key = Some value /\
  file (disk r.2) = Plist (_settings r.2) /\
  (key, value) ∈ emitted r.2 /\
  (get key PNone r.2).1 = value.

(** The specification's sentence on a failed save, for one call: the
    store is left with the dictionary that was known to be good. *)
Definition degrades_to_last_known_good (key : string) (value : pyval) (s : state) : Prop :=
  attempt (disk s) (<[key := value]> (_settings s)) <> Written ->
  last_known_good s = Some (_settings s) ->
  Some (_settings (set key value s).2) = last_known_good s.

End MacOSConfigStore.

(** ** The native storage client, [client_native.Storage] *)

Module Storage.

(** A [hamster.lib.fact.Fact], by the attributes the client reads and
    writes.  An unset attribute is [None]; times are minutes on the
    clock of [dt.datetime]. *)
Record Fact := MkFact {
  activity : option string;
  category : option string;
  description : option string;
  tags : list string;
  start_time : option Z;
  end_time : option Z }.

(** A row of [db.get_category_activities], read by its four columns. *)
Record activity_row := MkRow {
  r_id : pyval;
  r_name : pyval;
  r_category_id : pyval;
  r_category : pyval }.

(** The record store [hamster.storage.db.Storage] as the client uses it:
    each call gets the fact (or the key) and the store's state, and
    returns or raises, leaving a new state. *)
Class RecordStore (DB : Type) := {
  db_check_fact : Fact -> option Z -> DB -> outcome unit * DB;
  db_add_fact : Fact -> DB -> outcome Z * DB;
  db_get_category_activities : Z -> DB -> outcome (list activity_row) * DB }.

(** [fact.start_time = t] *)
Definition set_start_time (t : Z) (f : Fact) : Fact :=
  MkFact (activity f) (category f) (description f) (tags f) (Some t) (end_time f).

Inductive log_event :=
| LogDeprecatedStartTime.  (* info: "Adding fact without any start_time is deprecated" *)

(** Truth value of an attribute that holds a string or [None]. *)
Definition truthy_str (o : option string) : bool :=
  match o with
  | Some s => negb (String.eqb s EmptyString)
  | None => false
  end.

(** Truth value of a Python value. *)
Definition truthy (v : pyval) : bool :=
  match v with
  | PNone => false
  | PBool b => b
  | PInt z => negb (z =? 0)
  | PStr s => negb (String.eqb s EmptyString)
  end.

(** [a or b] *)
Definition py_or (a b : pyval) : pyval := if truthy a then a else b.

(** [dict(zip(columns, row))] for each row; a dictionary is the list of
    its items in insertion order (the columns are distinct). *)
Definition _to_dict (columns : list string) (result_list : list (list pyval))
  : list (list (string * pyval)) :=
  map (fun row => zip columns row) result_list.

Section Client.

Context {DB : Type} `{RecordStore DB}.

(** The client and the objects it is handed: facts live in a heap and
    are passed by reference.  A reference a caller holds designates an
    object of the heap; the calls below answer [OtherError] on any other
    number, a case no caller reaches. *)
Record world := MkWorld {
  heap : gmap nat Fact;        (* the Fact objects *)
  db : DB;                     (* self._db *)
  clock : Z;                   (* what dt.datetime.now() reads *)
  logged : list log_event }.

Definition with_db (d : DB) (w : world) : world :=
  MkWorld (heap w) d (clock w) (logged w).

(** [check_fact(fact, default_day=None)] *)
Definition check_fact (fact : nat) (default_day : option Z) (w : world)
  : outcome (bool * string) * world :=
  match heap w !! fact with
  | None => (Raise (OtherError "no such object"), w)
  | Some f =>
      if negb (bool_decide (is_Some (start_time f)))
      then (Raise (FactError "Missing start time"), w)
      else
        match db_check_fact f default_day (db w) with
        | (Return _, d) => (Return (true, EmptyString), with_db d w)
        | (Raise (FactError msg), d) => (Raise (FactError msg), with_db d w)
        | (Raise e, d) => (Raise e, with_db d w)
        end
  end.

(** [add_fact(fact, temporary_activity=False)] *)
Definition add_fact (fact : nat) (temporary_activity : bool) (w : world)
  : outcome Z * world :=
  match heap w !! fact with
  | None => (Raise (OtherError "no such object"), w)
  | Some f =>
      if negb (truthy_str (activity f))
      then (Raise (AssertionError "missing activity"), w)
      else
        let '(f, w) :=
          if negb (bool_decide (is_Some (start_time f)))
          then
            let f' := set_start_time (clock w) f in
            (f', MkWorld (<[fact := f']> (heap w)) (db w) (clock w)
                         (logged w ++ [LogDeprecatedStartTime]))
          else (f, w) in
        let '(new_id, d) := db_add_fact f (db w) in
        (new_id, with_db d w)
  end.

(** [get_category_activities(category_id=None)] *)
Definition get_category_activities (category_id : option Z) (w : world)
  : outcome (list (list (string * pyval))) * world :=
  let category_id :=
    match category_id with
    | Some c => if c =? 0 then -1 else c
    | None => -1
    end in
  match db_get_category_activities category_id (db w) with
  | (Return rows, d) =>
      (Return (_to_dict ["id"; "name"; "category_id"; "category"]
                 (map (fun a => [r_id a; r_name a; r_category_id a;
                                 py_or (r_category a) (PStr EmptyString)]) rows)),
       with_db d w)
  | (Raise e, d) => (Raise e, with_db d w)
  end.

End Client.

Arguments world DB : clear implicits.

End Storage.

(** ** A record store to run the client against *)

Module SpecStore.
Import Storage.

(** Modelled from the spec: an activity of the record store
    ([hamster.storage.db], which is not among the sources), with the
    fields of the data model: identifier, name, nullable category
    reference, deleted flag. *)
Record Activity := MkActivity {
  a_id : Z;
  a_name : string;
  a_category : option Z;
  a_deleted : bool }.

(** Modelled from the spec: a category of the record store
    ([hamster.storage.db]): identifier and name. *)
Record Category := MkCategory { c_id : Z; c_name : string }.

(** Modelled from the spec: the state of the record store
    ([hamster.storage.db]): the persisted facts under the identifiers
    the store assigned, the activities and the categories. *)
Record store := MkStore {
  facts : list (Z * Fact);
  activities : list Activity;
  categories : list Category }.

(** Modelled from the spec: the fact invariant that the record store's
    check routine ([db.check_fact]) enforces: the start time is set and
    the end time, if present, does not precede it. *)
Definition check (f : Fact) : outcome unit :=
  match start_time f, end_time f with
  | None, _ => Raise (FactError "start time is required")
  | Some t0, Some t1 =>
      if t1 <? t0 then Raise (FactError "end time precedes start time") else Return tt
  | Some _, None => Return tt
  end.

(** Modelled from the spec: [db.add_fact] re-runs the check and, on
    success, persists the fact under a new identifier. *)
Definition store_add_fact (f : Fact) (st : store) : outcome Z * store :=
  match check f with
  | Return _ =>
      let new_id := 1 + foldr Z.max 0 (map fst (facts st)) in
      (Return new_id, MkStore (facts st ++ [(new_id, f)]) (activities st) (categories st))
  | Raise e => (Raise e, st)
  end.

(** Modelled from the spec: the name of a category, for the [category]
    column of an activity row ([hamster.storage.db]). *)
Definition category_name (st : store) (c : option Z) : pyval :=
  match c with
  | None => PNone
  | Some i =>
      match filter (fun k => c_id k = i) (categories st) with
      | k :: _ => PStr (c_name k)
      | [] => PNone
      end
  end.

(** Modelled from the spec: the row [db.get_category_activities] yields
    for an activity. *)
Definition row_of (st : store) (a : Activity) : activity_row :=
  MkRow (PInt (a_id a)) (PStr (a_name a))
        (match a_category a with Some c => PInt c | None => PNone end)
        (category_name st (a_category a)).

(** Modelled from the spec: [db.get_category_activities(category_id)]:
    with the sentinel the client passes for an absent category, exactly
    the activities whose category is unset; otherwise the activities of
    that category. *)
Definition store_get_category_activities (category_id : Z) (st : store)
  : outcome (list activity_row) * store :=
  let wanted := if category_id =? -1 then None else Some category_id in
  (Return (map (row_of st) (filter (fun a => a_category a = wanted) (activities st))), st).

(** Modelled from the spec: the record store [hamster.storage.db.Storage]
    behind the client's calls. *)
Global Instance spec_store : RecordStore store := {
  db_check_fact f _ st := (check f, st);
  db_add_fact := store_add_fact;
  db_get_category_activities := store_get_category_activities }.

(** The record the client returns for an activity without category. *)
Definition uncategorized_record (a : Activity) : list (string * pyval) :=
  [ ("id", PInt (a_id a)); ("name", PStr (a_name a));
    ("category_id", PNone); ("category", PStr EmptyString) ].

End SpecStore.

(** ** Sample states *)

Module Samples.
Import MacOSConfigStore Storage SpecStore.

(** A store created where no plist exists yet, on a writable disk. *)
Definition fresh : state := __init__ (MkDisk NoFile writable_attempt) ∅.

(** A store created from a saved plist that can no longer be written. *)
Definition readonly : state :=
  __init__ (MkDisk (Plist _defaults) readonly_attempt) ∅.

(** A plist written by an older version: one known key, one unknown. *)
Definition partial_plist : gmap string pyval :=
  <["day-start-minutes" := PInt 270]> (<["theme" := PStr "dark"]> ∅).

Definition work : Fact :=
  MkFact (Some "work") (Some "office") None ["urgent"] (Some 600) None.

Definition work_unstarted : Fact :=
  MkFact (Some "work") (Some "office") None ["urgent"] None None.

Definition nameless : Fact := MkFact (Some EmptyString) None None [] None None.

Definition backwards : Fact :=
  MkFact (Some "work") None None [] (Some 600) (Some 540).

Definition some_store : store :=
  MkStore [(1, work)]
          [ MkActivity 1 "work" (Some 1) false;
            MkActivity 2 "nap" None false;
            MkActivity 3 "email" (Some 1) false;
            MkActivity 4 "walk" None false ]
          [ MkCategory 1 "office" ].

(** A client holding four fact objects, at 12:00. *)
Definition some_world : world store :=
  MkWorld (<[0%nat := work]> (<[1%nat := work_unstarted]>
            (<[2%nat := nameless]> (<[3%nat := backwards]> ∅))))
          some_store 720 [].

End Samples.

(** ** The other calls of the storage client *)

Module StorageRest.
Import Storage.

(** A row of [db.get_activities], read by its two columns. *)
Record activity_hit := MkHit { ah_name : pyval; ah_category : pyval }.

(** A row of [db.get_categories]. *)
Record category_row := MkCategoryRow { cr_id : pyval; cr_name : pyval }.

(** A row of [db.get_tags] and of [db.get_tag_ids]. *)
Record tag_row := MkTagRow {
  tr_id : pyval;
  tr_name : pyval;
  tr_autocomplete : pyval }.

(** The calls of [hamster.storage.db.Storage] behind the client's other
    methods. *)
Class RecordStoreRest (DB : Type) := {
  db_get_activities : string -> DB -> outcome (list activity_hit) * DB;
  db_get_categories : DB -> outcome (list category_row) * DB;
  db_get_tags : bool -> DB -> outcome (list tag_row) * DB;
  db_get_tag_ids : list string -> DB -> outcome (list tag_row) * DB;
  db_update_autocomplete_tags : list string -> DB -> outcome unit * DB;
  db_stop_tracking : Z -> DB -> outcome pyval * DB;
  db_stop_or_restart_tracking : DB -> outcome pyval * DB;
  db_remove_fact : Z -> DB -> outcome unit * DB;
  db_update_fact : Z -> Fact -> DB -> outcome Z * DB;
  db_get_category_id : string -> DB -> outcome pyval * DB;
  db_get_activity_by_name : string -> Z -> bool -> DB -> outcome pyval * DB }.

Section Client.

Context {DB : Type} `{RecordStore DB} `{RecordStoreRest DB}.

(** The end of a call that hands the store's answer on, reshaped by [f];
    an exception of the store goes through. *)
Definition through {A B : Type} (f : A -> B) (r : outcome A * DB) (w : world DB)
  : outcome B * world DB :=
  match r with
  | (Return a, d) => (Return (f a), with_db d w)
  | (Raise e, d) => (Raise e, with_db d w)
  end.

(** [get_activities(search)] *)
Definition get_activities (search : string) (w : world DB)
  : outcome (list (list (string * pyval))) * world DB :=
  through (fun rows =>
             _to_dict ["name"; "category"]
               (map (fun a => [ah_name a; py_or (ah_category a) (PStr EmptyString)]) rows))
          (db_get_activities search (db w)) w.

(** [get_categories()] *)
Definition get_categories (w : world DB)
  : outcome (list (list (string * pyval))) * world DB :=
  through (fun rows => _to_dict ["id"; "name"] (map (fun c => [cr_id c; cr_name c]) rows))
          (db_get_categories (db w)) w.

(** [get_tags(only_autocomplete=False)] *)
Definition get_tags (only_autocomplete : bool) (w : world DB)
  : outcome (list (list (string * pyval))) * world DB :=
  through (fun rows =>
             _to_dict ["id"; "name"; "autocomplete"]
               (map (fun t => [tr_id t; tr_name t; tr_autocomplete t]) rows))
          (db_get_tags only_autocomplete (db w)) w.

(** [get_tag_ids(tags)] *)
Definition get_tag_ids (tags : list string) (w : world DB)
  : outcome (list (list (string * pyval))) * world DB :=
  through (fun rows =>
             _to_dict ["id"; "name"; "autocomplete"]
               (map (fun t => [tr_id t; tr_name t; tr_autocomplete t]) rows))
          (db_get_tag_ids tags (db w)) w.

(** [update_autocomplete_tags(tags)] *)
Definition update_autocomplete_tags (tags : list string) (w : world DB)
  : outcome unit * world DB :=
  through id (db_update_autocomplete_tags tags (db w)) w.

(** [stop_tracking(end_time=None)] *)
Definition stop_tracking (end_time : option Z) (w : world DB)
  : outcome pyval * world DB :=
  let end_time :=
    match end_time with
    | None => clock w
    | Some t => t
    end in
  through id (db_stop_tracking end_time (db w)) w.

(** [stop_or_restart_tracking()] *)
Definition stop_or_restart_tracking (w : world DB) : outcome pyval * world DB :=
  through id (db_stop_or_restart_tracking (db w)) w.

(** [remove_fact(fact_id)] *)
Definition remove_fact (fact_id : Z) (w : world DB) : outcome unit * world DB :=
  through id (db_remove_fact fact_id (db w)) w.

(** [update_fact(fact_id, fact, temporary_activity=False)] *)
Definition update_fact (fact_id : Z) (fact : nat) (temporary_activity : bool)
    (w : world DB) : outcome Z * world DB :=
  match heap w !! fact with
  | None => (Raise (OtherError "no such object"), w)
  | Some f => through id (db_update_fact fact_id f (db w)) w
  end.

(** [get_category_id(category_name)] *)
Definition get_category_id (category_name : string) (w : world DB)
  : outcome pyval * world DB :=
  through id (db_get_category_id category_name (db w)) w.

(** [get_activity_by_name(activity, category_id=None, resurrect=True)] *)
Definition get_activity_by_name (activity : string) (category_id : option Z)
    (resurrect : bool) (w : world DB) : outcome pyval * world DB :=
  let category_id :=
    match category_id with
    | Some c => if c =? 0 then 0 else c
    | None => 0
    end in
  through id (db_get_activity_by_name activity category_id resurrect (db w)) w.

(** A call on the client, or the clock moving on between two calls. *)
Inductive call :=
| CheckFact (fact : nat) (default_day : option Z)
| AddFact (fact : nat) (temporary_activity : bool)
| UpdateFact (fact_id : Z) (fact : nat) (temporary_activity : bool)
| RemoveFact (fact_id : Z)
| StopTracking (end_time : option Z)
| StopOrRestartTracking
| GetActivities (search : string)
| GetCategories
| GetTags (only_autocomplete : bool)
| GetTagIds (tags : list string)
| UpdateAutocompleteTags (tags : list string)
| GetCategoryActivities (category_id : option Z)
| GetCategoryId (category_name : string)
| GetActivityByName (activity : string) (category_id : option Z) (resurrect : bool)
| ClockMoves (t : Z).

Definition step (w : world DB) (c : call) : world DB :=
  match c with
  | CheckFact fact default_day => (check_fact fact default_day w).2
  | AddFact fact t => (add_fact fact t w).2
  | UpdateFact fact_id fact t => (update_fact fact_id fact t w).2
  | RemoveFact fact_id => (remove_fact fact_id w).2
  | StopTracking end_time => (stop_tracking end_time w).2
  | StopOrRestartTracking => (stop_or_restart_tracking w).2
  | GetActivities search => (get_activities search w).2
  | GetCategories => (get_categories w).2
  | GetTags b => (get_tags b w).2
  | GetTagIds tags => (get_tag_ids tags w).2
  | UpdateAutocompleteTags tags => (update_autocomplete_tags tags w).2
  | GetCategoryActivities c => (get_category_activities c w).2
  | GetCategoryId name => (get_category_id name w).2
  | GetActivityByName a c r => (get_activity_by_name a c r w).2
  | ClockMoves t => MkWorld (heap w) (db w) t (Storage.logged w)
  end.

Definition run (calls : list call) (w : world DB) : world DB := foldl step w calls.

End Client.

(** The value under [key] in a record. *)
Definition field (key : string) (record : list (string * pyval)) : option pyval :=
  (list_to_map record : gmap string pyval) !! key.


(** [has_text_category record]: the record has a [category] field, and
    its value is not [None]: it is the empty string or a value that
    counts as true. *)
Definition has_text_category (record : list (string * pyval)) : Prop :=
  exists v, field "category" record = Some v /\ v <> PNone /\
            (v = PStr EmptyString \/ truthy v = true).

End StorageRest.

(** ** The test script [macos/test_macos_port.py] *)

Module MacPortTest.
Import MacOSConfigStore.

(** The notifications a sequence of calls on the store publishes: one
    for each [set], in order. *)
Definition published (calls : list call) : list (string * pyval) :=
  omap (fun c => match c with CallSet key value => Some (key, value) | _ => None end) calls.

(** [is_set c]: the call [c] is a [set]. *)
Definition is_set (c : call) : bool :=
  match c with CallSet _ _ => true | _ => false end.

(** [a == b] on the values of [pyval]: booleans compare as the integers
    0 and 1; values of different kinds are unequal. *)
Definition py_eq (a b : pyval) : bool :=
  match a, b with
  | PNone, PNone => true
  | PBool x, PBool y => bool_decide (x = y)
  | PBool x, PInt z | PInt z, PBool x => (if x then 1 else 0) =? z
  | PInt x, PInt y => x =? y
  | PStr x, PStr y => String.eqb x y
  | _, _ => false
  end.

(** What the script prints; the separator lines and the traceback of a
    failed test are left out. *)
Inductive printed :=
| PrintDayStartMinutes (v : pyval)
| PrintLastReportFolder (v : pyval)
| PrintDayStartTime (t : Dt.time)
| PrintConfigOperationsPassed
| PrintRunning (name : string)
| PrintTestFailed (e : exn)
| PrintResults (passed failed : Z).

(** [test_config_operations()], on the store [conf] in state [s]. *)
Definition test_config_operations (s : state) : outcome unit * state * list printed :=
  let '(day_start_minutes, s) := get "day-start-minutes" PNone s in
  let out := [PrintDayStartMinutes day_start_minutes] in
  if negb (py_eq day_start_minutes (PInt 330))
  then (Raise (AssertionError "Default should be 330 (5:30 AM)"), s, out)
  else
    let '(_, s) := set "last-report-folder" (PStr "/tmp/test") s in
    let '(value, s) := get "last-report-folder" PNone s in
    let out := out ++ [PrintLastReportFolder value] in
    if negb (py_eq value (PStr "/tmp/test"))
    then (Raise (AssertionError "Should be able to set and get values"), s, out)
    else
      let '(day_start_time, s) := day_start s in
      match day_start_time with
      | Return t =>
          (Return tt, s, out ++ [PrintDayStartTime t; PrintConfigOperationsPassed])
      | Raise e => (Raise e, s, out)
      end.

Section Main.

(** The tests act on a world [W]; a test returns or raises. *)
Context {W : Type}.

(** One turn of the loop of [main]: the counters, the world and the
    output after running the test [t]. *)
Definition run_test (acc : Z * Z * W * list printed) (t : string * (W -> outcome unit * W))
  : Z * Z * W * list printed :=
  let '(passed, failed, w, out) := acc in
  match t.2 w with
  | (Return _, w') => (passed + 1, failed, w', out ++ [PrintRunning t.1])
  | (Raise e, w') => (passed, failed + 1, w', out ++ [PrintRunning t.1; PrintTestFailed e])
  end.

(** [main()], for a given list of tests: the exit status, the world and
    the output. *)
Definition main (tests : list (string * (W -> outcome unit * W))) (w : W)
  : Z * W * list printed :=
  let '(passed, failed, w, out) := foldl run_test (0, 0, w, []) tests in
  (if failed =? 0 then 0 else 1, w, out ++ [PrintResults passed failed]).

(** The outcome of each test when the tests run one after the other. *)
Fixpoint outcomes (tests : list (string * (W -> outcome unit * W))) (w : W)
  : list (outcome unit) :=
  match tests with
  | [] => []
  | t :: tests => (t.2 w).1 :: outcomes tests (t.2 w).2
  end.

Definition returned (r : outcome unit) : bool :=
  match r with Return _ => true | Raise _ => false end.

(** How many of the outcomes are returns, and how many are exceptions. *)
Definition count_returned (rs : list (outcome unit)) : Z :=
  Z.of_nat (length (filter (fun r => returned r = true) rs)).

Definition count_raised (rs : list (outcome unit)) : Z :=
  Z.of_nat (length (filter (fun r => returned r = false) rs)).

End Main.

End MacPortTest.

(** ** More sample states *)

Module MoreSamples.
Import MacOSConfigStore Storage SpecStore StorageRest Samples.

(** A store whose user moved the start of the day to 04:30. *)
Definition customised : state :=
  __init__ (MkDisk (Plist partial_plist) writable_attempt) ∅.

(** A fact that ends at 09:00 and has no start time yet. *)
Definition ends_early : Fact :=
  MkFact (Some "work") None None [] None (Some 540).

(** A client holding this fact, at 12:00. *)
Definition retry_world : world store :=
  MkWorld (<[0%nat := ends_early]> ∅) some_store 720 [].

End MoreSamples.

(** * Properties of the configuration store *)

Module ConfigTheory.
Import MacOSConfigStore.

(** *** Loading *)

Lemma merge_step_union (m d : gmap string pyval) (kv : string * pyval) :
  merge_step m kv ∪ d = m ∪ <[kv.1 := kv.2]> d.
Proof.
  unfold merge_step. destruct (m !! kv.1) as [v|] eqn:E.
  - apply map_eq; intros i. rewrite !lookup_union.
    destruct (decide (kv.1 = i)) as [<-|Hne].
    + rewrite E, lookup_insert_eq. by destruct (d !! kv.1).
    + by rewrite lookup_insert_ne.
  - rewrite <- insert_union_l. by rewrite insert_union_r.
Qed.

(** The merge loop computes the union that prefers the file's entries,
    whatever the list of defaults is. *)
Lemma merge_loop_union (items : list (string * pyval)) (m : gmap string pyval) :
  foldl merge_step m items = m ∪ list_to_map items.
Proof.
  revert m. induction items as [|kv items IH]; intros m; simpl.
  - by rewrite (right_id_L ∅ (∪)).
  - rewrite IH. destruct kv as [k v]. apply (merge_step_union m _ (k, v)).
Qed.

Lemma merge_loop_lookup (m : gmap string pyval) (k : string) :
  foldl merge_step m _defaults_items !! k =
    match m !! k with Some v => Some v | None => _defaults !! k end.
Proof.
  rewrite merge_loop_union, lookup_union. fold _defaults.
  destruct (m !! k), (_defaults !! k); done.
Qed.

Lemma _defaults_lookup (k : string) :
  _defaults !! k =
    if decide (k = "day-start-minutes") then Some (PInt 330)
    else if decide (k = "last-report-folder") then Some (PStr EmptyString)
    else None.
Proof.
  unfold _defaults, _defaults_items. simpl.
  repeat case_decide; subst; simplify_map_eq; done.
Qed.

(** *** Reading and writing *)

Lemma settings_log e s : _settings (log e s) = _settings s.
Proof. done. Qed.

Lemma settings_type_check key value s :
  _settings (type_check key value s) = _settings s.
Proof.
  unfold type_check. destruct (_defaults !! key); [|done].
  by destruct (_ && _).
Qed.

Lemma disk_type_check key value s : disk (type_check key value s) = disk s.
Proof.
  unfold type_check. destruct (_defaults !! key); [|done].
  by destruct (_ && _).
Qed.

Lemma handlers_type_check key value s :
  handlers (type_check key value s) = handlers s.
Proof.
  unfold type_check. destruct (_defaults !! key); [|done].
  by destruct (_ && _).
Qed.

Lemma objects_type_check key value s :
  objects (type_check key value s) = objects s.
Proof.
  unfold type_check. destruct (_defaults !! key); [|done].
  by destruct (_ && _).
Qed.

Lemma emitted_type_check key value s :
  emitted (type_check key value s) = emitted s.
Proof.
  unfold type_check. destruct (_defaults !! key); [|done].
  by destruct (_ && _).
Qed.

(** [get] never changes anything but the log. *)
Lemma get_frame key default s :
  let s' := (get key default s).2 in
  _settings s' = _settings s /\ disk s' = disk s /\ handlers s' = handlers s /\
  objects s' = objects s /\ emitted s' = emitted s.
Proof.
  unfold get. destruct (is_None _); [destruct (negb _)|]; done.
Qed.

(** The value [get] returns, by the entry of the dictionary. *)
Lemma get_value key s :
  (get key PNone s).1 =
    match _settings s !! key with
    | Some PNone | None => match _defaults !! key with Some v => v | None => PNone end
    | Some v => v
    end.
Proof.
  unfold get. destruct (_settings s !! key) as [[]|]; done.
Qed.

Lemma set_settings key value s :
  _settings (set key value s).2 = <[key := value]> (_settings s).
Proof.
  unfold set, emit_changed, _save_settings. simpl.
  destruct (plist_write _ _). simpl.
  by rewrite settings_type_check.
Qed.

Lemma set_disk key value s :
  disk (set key value s).2 =
    (plist_write (<[key := value]> (_settings s)) (disk s)).1.
Proof.
  unfold set, emit_changed, _save_settings. simpl.
  rewrite settings_type_check, disk_type_check. simpl.
  by destruct (plist_write _ _).
Qed.

Lemma set_handlers key value s : handlers (set key value s).2 = handlers s.
Proof.
  unfold set, emit_changed, _save_settings. simpl.
  destruct (plist_write _ _). simpl.
  by rewrite handlers_type_check.
Qed.

Lemma set_emitted key value s :
  emitted (set key value s).2 = emitted s ++ [(key, value)].
Proof.
  unfold set, emit_changed, _save_settings. simpl.
  destruct (plist_write _ _). simpl.
  by rewrite emitted_type_check.
Qed.

Lemma set_logged key value s :
  logged (set key value s).2 =
    logged (type_check key value (log (LogSetting key value) s)) ++
    [if (plist_write (<[key := value]> (_settings s)) (disk s)).2
     then LogSaved (<[key := value]> (_settings s)) else LogSaveFailed].
Proof.
  unfold set, emit_changed, _save_settings. simpl.
  rewrite settings_type_check, disk_type_check. simpl.
  by destruct (plist_write _ _).
Qed.

(** After [set], [get] reads the value back, except that a stored [None]
    reads as a missing entry. *)
Lemma get_after_set key value s :
  (get key PNone (set key value s).2).1 =
    if is_None value
    then match _defaults !! key with Some v => v | None => PNone end
    else value.
Proof.
  rewrite get_value, set_settings, lookup_insert_eq. by destruct value.
Qed.

(** *** Notification *)

Lemma on_changed_lookup h k v objs t :
  on_changed h k v objs !! t = if targets k t h then Some v else objs !! t.
Proof.
  unfold on_changed, targets, set_property.
  destruct (decide (k = h_key h)) as [->|Hk].
  - rewrite bool_decide_eq_true_2 by done. simpl.
    case_bool_decide as Ht; [subst; apply lookup_insert_eq | by apply lookup_insert_ne].
  - rewrite bool_decide_eq_false_2 by congruence. done.
Qed.

(** The target properties after the handlers have run. *)
Lemma handlers_run_lookup hs k v objs t :
  foldl (fun o h => on_changed h k v o) objs hs !! t =
    if existsb (targets k t) hs then Some v else objs !! t.
Proof.
  induction hs as [|h hs IH] using rev_ind; [done|].
  rewrite foldl_app, existsb_app. simpl.
  rewrite on_changed_lookup, IH, orb_false_r.
  destruct (targets k t h); [by rewrite orb_true_r | by rewrite orb_false_r].
Qed.

Lemma set_objects key value s t :
  objects (set key value s).2 !! t =
    if existsb (targets key t) (handlers s) then Some value else objects s !! t.
Proof.
  unfold set, emit_changed, _save_settings. simpl.
  destruct (plist_write _ _). simpl.
  rewrite handlers_type_check, objects_type_check. simpl.
  apply handlers_run_lookup.
Qed.

Lemma step_handlers s c :
  exists hs, handlers (step s c) = handlers s ++ hs.
Proof.
  destruct c as [key default|key value|key obj prop|]; simpl.
  - exists []. rewrite (right_id_L [] (++)). apply (get_frame key default s).
  - exists []. rewrite (right_id_L [] (++)). apply set_handlers.
  - exists [OnChanged key obj prop]. unfold bind. simpl.
    pose proof (get_frame key PNone (log (LogBinding key obj prop) s)) as F.
    destruct (get key PNone _) as [v s']. simpl in *. by destruct F as (_ & _ & -> & _).
  - exists []. rewrite (right_id_L [] (++)). unfold day_start.
    pose proof (get_frame "day-start-minutes" PNone s) as F.
    destruct (get "day-start-minutes" PNone s) as [v s']. simpl in F.
    destruct (Dt.divmod60 v) as [[]|]; simpl; apply F.
Qed.

(** A connected handler stays connected: nothing disconnects. *)
Lemma run_handlers calls s h : h ∈ handlers s -> h ∈ handlers (run calls s).
Proof.
  revert s. induction calls as [|c calls IH]; intros s Hin; [done|].
  simpl. apply IH. destruct (step_handlers s c) as [hs ->].
  apply elem_of_app. by left.
Qed.

End ConfigTheory.

(** * The specification's statements on the configuration store *)

Module ConfigSpec.
Import MacOSConfigStore ConfigTheory Samples.

(** C4.  On construction, a readable plist is merged with the defaults:
    every key keeps the file's value if the file has one and otherwise
    gets the compiled-in default (keys unknown to the defaults are
    kept); a missing or unreadable file gives exactly the defaults.  A
    store created without a file answers 330 for "day-start-minutes"
    and the empty string for "last-report-folder". *)
Theorem load_merges_defaults (d : Disk) (a : gmap string pyval -> write_outcome)
    (objs : gmap (nat * string) pyval) :
  match file d with
  | Plist m =>
      forall k, _settings (__init__ d objs) !! k =
                  match m !! k with Some v => Some v | None => _defaults !! k end
  | NoFile | Unreadable => _settings (__init__ d objs) = _defaults
  end /\
  (get "day-start-minutes" PNone (__init__ (MkDisk NoFile a) objs)).1 = PInt 330 /\
  (get "last-report-folder" PNone (__init__ (MkDisk NoFile a) objs)).1 = PStr EmptyString.
Proof.
  split; [|split; reflexivity].
  unfold __init__, _load_settings. destruct (file d) as [| |m]; simpl; try reflexivity.
  intros k. apply merge_loop_lookup.
Qed.

Example load_partial_plist :
  let s := __init__ (MkDisk (Plist partial_plist) writable_attempt) ∅ in
  _settings s !! "day-start-minutes" = Some (PInt 270) /\
  _settings s !! "last-report-folder" = Some (PStr EmptyString) /\
  _settings s !! "theme" = Some (PStr "dark").
Proof. vm_compute. auto. Qed.

(** C3, as the code has it.  [set] never raises and never rejects a
    value, whatever its type: it returns [True], the dictionary after
    the call is the one before with [key] bound to [value], the write of
    the whole dictionary is attempted (the file holds it when the write
    succeeds, is untouched when it could not be opened and is left
    unreadable when the dump failed), [changed(key, value)] is
    published, and [get(key)] reads [value] back unless [value] is
    [None], which reads as the compiled-in default of the key. *)
Theorem set_stores_and_notifies (key : string) (value : pyval) (s : state) :
  let r := set key value s in
  r.1 = true /\
  _settings r.2 = <[key := value]> (_settings s) /\
  file (disk r.2) =
    match attempt (disk s) (<[key := value]> (_settings s)) with
    | Written => Plist (<[key := value]> (_settings s))
    | OpenFailed => file (disk s)
    | DumpFailed => Unreadable
    end /\
  emitted r.2 = emitted s ++ [(key, value)] /\
  (get key PNone r.2).1 =
    if is_None value
    then match _defaults !! key with Some v => v | None => PNone end
    else value.
Proof.
  cbv zeta. split; [done|]. split; [apply set_settings|].
  split; [|split; [apply set_emitted | apply get_after_set]].
  rewrite set_disk. unfold plist_write.
  by destruct (attempt _ _).
Qed.

(** A value of the wrong type is stored all the same; the mismatch is
    only logged. *)
Example set_type_mismatch_is_logged :
  let r := set "day-start-minutes" (PStr "late") fresh in
  r.1 = true /\
  _settings r.2 !! "day-start-minutes" = Some (PStr "late") /\
  LogTypeMismatch "day-start-minutes" TInt TStr ∈ logged r.2 /\
  (get "day-start-minutes" PNone r.2).1 = PStr "late".
Proof.
  cbv zeta. split; [done|]. split; [reflexivity|]. split; [|reflexivity].
  vm_compute logged. set_solver.
Qed.

(** C3, counterexample.  Storing [None] under "day-start-minutes" makes
    [get] answer 330, not the stored value; and on a disk that cannot be
    written the file does not hold the dictionary after [set]. *)
Lemma set_as_specified_fails :
  (get "day-start-minutes" PNone (set "day-start-minutes" PNone fresh).2).1 = PInt 330 /\
  ~ set_as_specified "day-start-minutes" PNone fresh /\
  ~ set_as_specified "last-report-folder" (PStr "/tmp/test") readonly.
Proof.
  split; [reflexivity|]. split.
  - intros (_ & _ & _ & _ & Hget). vm_compute in Hget. discriminate.
  - intros (_ & _ & Hfile & _). vm_compute in Hfile. discriminate.
Qed.

(** C6, as the code has it.  When the write of the plist fails, [set]
    still returns [True] without raising and the failure is logged as
    the last record; the dictionary in memory keeps the new value (it
    is not rolled back to what the file holds), [changed(key, value)]
    is still published, and the file is untouched if it could not be
    opened, unreadable if the dump failed. *)
Theorem set_survives_failed_save (key : string) (value : pyval) (s : state) :
  attempt (disk s) (<[key := value]> (_settings s)) <> Written ->
  let r := set key value s in
  r.1 = true /\
  last (logged r.2) = Some LogSaveFailed /\
  _settings r.2 = <[key := value]> (_settings s) /\
  emitted r.2 = emitted s ++ [(key, value)] /\
  file (disk r.2) =
    match attempt (disk s) (<[key := value]> (_settings s)) with
    | DumpFailed => Unreadable
    | _ => file (disk s)
    end.
Proof.
  intros Hfail. cbv zeta. split; [done|].
  split; [|split; [apply set_settings | split; [apply set_emitted|]]].
  - rewrite set_logged, last_snoc. unfold plist_write.
    by destruct (attempt _ _).
  - rewrite set_disk. unfold plist_write.
    by destruct (attempt _ _).
Qed.

Lemma set_survives_failed_save_witness :
  let r := set "day-start-minutes" (PInt 270) readonly in
  r.1 = true /\
  last (logged r.2) = Some LogSaveFailed /\
  _settings r.2 = <["day-start-minutes" := PInt 270]> (_settings readonly) /\
  emitted r.2 = emitted readonly ++ [("day-start-minutes", PInt 270)] /\
  file (disk r.2) = file (disk readonly).
Proof.
  apply (set_survives_failed_save "day-start-minutes" (PInt 270) readonly).
  vm_compute. discriminate.
Defined.

(** C6, counterexample.  The store was in step with its file; the save
    of 270 fails; the dictionary in memory then holds 270 while the
    last dictionary known to be good holds 330. *)
Lemma degrades_to_last_known_good_fails :
  ~ degrades_to_last_known_good "day-start-minutes" (PInt 270) readonly.
Proof.
  intros Hclaim.
  assert (Hsome : Some (_settings (set "day-start-minutes" (PInt 270) readonly).2)
                  = last_known_good readonly).
  { apply Hclaim; [vm_compute; discriminate | reflexivity]. }
  apply (f_equal (fun o => o ≫= (.!! "day-start-minutes"))) in Hsome.
  vm_compute in Hsome. discriminate.
Qed.

(** C5.  [bind] pushes the current value of [key] into the target
    property and leaves the settings and the file alone; from then on,
    whatever calls are made in between, a [set] of [key] to [v] leaves
    [v] in the target property; the connected handler does nothing on
    a notification for another key, and a [set] of a key for which no
    handler writes this property leaves the property as it was. *)
Theorem bind_is_one_way (key : string) (obj : nat) (prop : string) (s : state) :
  let s1 := bind key obj prop s in
  objects s1 !! (obj, prop) = Some (get key PNone s).1 /\
  _settings s1 = _settings s /\
  disk s1 = disk s /\
  (forall calls v,
      objects (set key v (run calls s1)).2 !! (obj, prop) = Some v) /\
  (forall k v objs,
      k <> key -> on_changed (OnChanged key obj prop) k v objs = objs) /\
  (forall calls k v,
      k <> key ->
      (forall h, h ∈ handlers (run calls s1) -> h_key h = k ->
                 (h_obj h, h_prop h) <> (obj, prop)) ->
      objects (set k v (run calls s1)).2 !! (obj, prop) =
        objects (run calls s1) !! (obj, prop)).
Proof.
  cbv zeta.
  assert (Hin : OnChanged key obj prop ∈ handlers (bind key obj prop s)).
  { unfold bind, connect. destruct (get key PNone _). simpl.
    apply elem_of_app. right. by apply list_elem_of_singleton. }
  pose proof (get_frame key PNone (log (LogBinding key obj prop) s)) as F.
  assert (Hv : (get key PNone (log (LogBinding key obj prop) s)).1 = (get key PNone s).1).
  { by rewrite !get_value. }
  repeat split.
  - unfold bind, connect, with_objects, set_property.
    destruct (get key PNone _) as [v s']. simpl in *. rewrite <- Hv.
    apply lookup_insert_eq.
  - unfold bind. destruct (get key PNone _) as [v s']. simpl in *. apply F.
  - unfold bind. destruct (get key PNone _) as [v s']. simpl in *. apply F.
  - intros calls v. rewrite set_objects.
    apply (run_handlers calls) in Hin.
    destruct (existsb _ _) eqn:E; [done|].
    rewrite <- not_true_iff_false, existsb_exists in E. exfalso. apply E.
    exists (OnChanged key obj prop). split; [by apply list_elem_of_In|].
    unfold targets. simpl. by rewrite !bool_decide_eq_true_2.
  - intros k v objs Hne. unfold on_changed. simpl. by rewrite decide_False.
  - intros calls k v _ Hother. rewrite set_objects.
    destruct (existsb _ _) eqn:E; [|done].
    apply existsb_exists in E as (h & Hh & Ht). exfalso.
    unfold targets in Ht. apply andb_true_iff in Ht as [Hk Ho].
    apply bool_decide_eq_true_1 in Hk. apply bool_decide_eq_true_1 in Ho.
    apply (Hother h); [by apply list_elem_of_In | done | done].
Qed.

Lemma bind_is_one_way_witness :
  let s1 := bind "day-start-minutes" 1 "minutes" fresh in
  objects s1 !! (1%nat, "minutes") = Some (PInt 330) /\
  objects (set "day-start-minutes" (PInt 270)
             (run [CallSet "last-report-folder" (PStr "/tmp")] s1)).2
    !! (1%nat, "minutes") = Some (PInt 270) /\
  on_changed (OnChanged "day-start-minutes" 1 "minutes") "last-report-folder"
             (PStr "/tmp") (objects s1) = objects s1 /\
  objects (set "last-report-folder" (PStr "/tmp") (run [] s1)).2
    !! (1%nat, "minutes") = objects (run [] s1) !! (1%nat, "minutes").
Proof.
  destruct (bind_is_one_way "day-start-minutes" 1 "minutes" fresh)
    as (H1 & _ & _ & H4 & H5 & H6).
  split; [exact H1|]. split; [apply H4|]. split.
  - apply H5. discriminate.
  - apply H6; [discriminate|].
    intros h Hh Hk Ht. vm_compute in Hh.
    apply list_elem_of_singleton in Hh. subst h. discriminate.
Defined.

(** C7.  [day_start] is the time of day [(hours, minutes)] with
    [(hours, minutes) = divmod(get("day-start-minutes"), 60)], that is
    [60 * hours + minutes] is the stored number and [minutes] is in
    0..59; after [set("day-start-minutes", 270)], [get] answers 270 and
    [day_start] is 04:30. *)
Theorem day_start_is_divmod (s : state) (n : Z) :
  (get "day-start-minutes" PNone s).1 = PInt n ->
  (day_start s).1 = Dt.mk_time (n `div` 60) (n `mod` 60) /\
  n = 60 * (n `div` 60) + n `mod` 60 /\
  0 <= n `mod` 60 < 60 /\
  (get "day-start-minutes" PNone (set "day-start-minutes" (PInt 270) s).2).1 = PInt 270 /\
  (day_start (set "day-start-minutes" (PInt 270) s).2).1 = Return (Dt.Time 4 30).
Proof.
  intros Hget. split; [|split; [|split; [|split]]].
  - unfold day_start. destruct (get "day-start-minutes" PNone s) as [v s'].
    simpl in Hget. subst v. reflexivity.
  - apply Z.div_mod. lia.
  - apply Z.mod_pos_bound. lia.
  - apply get_after_set.
  - unfold day_start.
    pose proof (get_after_set "day-start-minutes" (PInt 270) s) as G.
    destruct (get "day-start-minutes" PNone (set _ _ s).2) as [v s'].
    simpl in G. subst v. reflexivity.
Qed.

Lemma day_start_is_divmod_witness :
  (day_start fresh).1 = Return (Dt.Time 5 30) /\
  (day_start (set "day-start-minutes" (PInt 270) fresh).2).1 = Return (Dt.Time 4 30).
Proof.
  destruct (day_start_is_divmod fresh 330) as (H1 & _ & _ & _ & H5);
    [reflexivity|].
  split; [exact H1 | exact H5].
Defined.

(** C10.  [day_start] is partial: when the number [get] answers for
    "day-start-minutes" is 1440 or more, or negative, the hour that
    [divmod] yields is outside 0..23 and the time constructor raises
    [ValueError]; and [set] stores any such number. *)
Theorem day_start_out_of_range (s : state) (z : Z) :
  1440 <= z \/ z < 0 ->
  ((get "day-start-minutes" PNone s).1 = PInt z ->
   ~ (0 <= z `div` 60 < 24) /\
   (day_start s).1 = Raise (ValueError "hour must be in 0..23")) /\
  (set "day-start-minutes" (PInt z) s).1 = true /\
  _settings (set "day-start-minutes" (PInt z) s).2 !! "day-start-minutes"
    = Some (PInt z) /\
  (day_start (set "day-start-minutes" (PInt z) s).2).1
    = Raise (ValueError "hour must be in 0..23").
Proof.
  intros Hz.
  assert (Hhour : ~ (0 <= z `div` 60 < 24)).
  { intros [Hlo Hhi]. destruct Hz as [Hz|Hz].
    - assert (24 <= z `div` 60) by (apply Z.div_le_lower_bound; lia). lia.
    - assert (z `div` 60 < 0) by (apply Z.div_lt_upper_bound; lia). lia. }
  assert (Hraise : forall s', (get "day-start-minutes" PNone s').1 = PInt z ->
            (day_start s').1 = Raise (ValueError "hour must be in 0..23")).
  { intros s' Hget. unfold day_start.
    destruct (get "day-start-minutes" PNone s') as [v s'']. simpl in Hget. subst v.
    simpl. unfold Dt.mk_time.
    destruct (negb _) eqn:E; [done|]. exfalso. apply Hhour.
    apply negb_false_iff, andb_true_iff in E. lia. }
  split; [intros Hget; split; [exact Hhour | by apply Hraise]|].
  split; [done|]. split.
  - rewrite set_settings. apply lookup_insert_eq.
  - apply Hraise. apply get_after_set.
Qed.

Lemma day_start_out_of_range_witness :
  (day_start (set "day-start-minutes" (PInt 1440) fresh).2).1
    = Raise (ValueError "hour must be in 0..23") /\
  (day_start (set "day-start-minutes" (PInt (-1)) fresh).2).1
    = Raise (ValueError "hour must be in 0..23").
Proof.
  split.
  - apply (day_start_out_of_range fresh 1440). left. lia.
  - apply (day_start_out_of_range fresh (-1)). right. lia.
Defined.


End ConfigSpec.

(** * The specification's statements on the storage client *)

Module StorageSpec.
Import Storage SpecStore Samples.

Section AnyStore.

Context {DB : Type} `{RecordStore DB}.

Lemma with_db_same (w : world DB) : with_db (db w) w = w.
Proof. by destruct w. Qed.

(** C1.  [add_fact] on a fact without activity raises the assertion
    error and changes nothing, in the store or elsewhere.  Otherwise
    the fact handed to the record store is the argument, with its
    start time set to the clock's reading (and the deprecation
    logged) if it had none; the call ends as the store's [add_fact]
    ends, so that it returns the identifier the store returns. *)
Theorem add_fact_contract (fact : nat) (f : Fact) (t : bool) (w : world DB) :
  heap w !! fact = Some f ->
  (truthy_str (activity f) = false ->
   add_fact fact t w = (Raise (AssertionError "missing activity"), w)) /\
  (truthy_str (activity f) = true ->
   let f' := match start_time f with
             | Some _ => f
             | None => set_start_time (clock w) f
             end in
   (add_fact fact t w).1 = (db_add_fact f' (db w)).1 /\
   db (add_fact fact t w).2 = (db_add_fact f' (db w)).2 /\
   (forall new_id, (db_add_fact f' (db w)).1 = Return new_id ->
                   (add_fact fact t w).1 = Return new_id) /\
   (start_time f = None ->
    start_time f' = Some (clock w) /\
    logged (add_fact fact t w).2 = logged w ++ [LogDeprecatedStartTime])).
Proof.
  intros Hf. unfold add_fact. rewrite Hf. split; intros Ha; rewrite Ha; simpl.
  - reflexivity.
  - destruct (start_time f) as [t0|] eqn:Et; simpl.
    + destruct (db_add_fact f (db w)) as [r d] eqn:Ed. simpl.
      repeat split; [done | discriminate | discriminate].
    + destruct (db_add_fact (set_start_time (clock w) f) (db w)) as [r d] eqn:Ed.
      simpl. repeat split; done.
Qed.

(** C9.  [add_fact] writes to the object it is handed: when the fact
    had no start time and the call returns, the caller's object has
    the clock's reading as start time and no other object has
    changed; when the fact had a start time, no object has changed. *)
Theorem add_fact_mutates_argument (fact : nat) (f : Fact) (t : bool) (w : world DB) :
  heap w !! fact = Some f ->
  (start_time f = None ->
   forall new_id, (add_fact fact t w).1 = Return new_id ->
   heap (add_fact fact t w).2 = <[fact := set_start_time (clock w) f]> (heap w) /\
   (heap (add_fact fact t w).2 !! fact ≫= start_time) = Some (clock w)) /\
  (is_Some (start_time f) -> heap (add_fact fact t w).2 = heap w).
Proof.
  intros Hf. unfold add_fact. rewrite Hf.
  destruct (truthy_str (activity f)); simpl.
  - split.
    + intros -> new_id _. simpl.
      destruct (db_add_fact _ _) as [r d]. simpl.
      split; [done|]. by rewrite lookup_insert_eq.
    + intros [t0 Ht0]. rewrite Ht0. simpl.
      by destruct (db_add_fact _ _) as [r d].
  - split; [intros _ new_id Hret; discriminate | done].
Qed.

(** The write of C9 is made before the store is called: it is there
    even when the store raises. *)
Lemma add_fact_mutates_before_store (fact : nat) (f : Fact) (t : bool) (w : world DB) :
  heap w !! fact = Some f ->
  truthy_str (activity f) = true ->
  start_time f = None ->
  heap (add_fact fact t w).2 = <[fact := set_start_time (clock w) f]> (heap w).
Proof.
  intros Hf Ha Hs. unfold add_fact. rewrite Hf, Ha, Hs. simpl.
  by destruct (db_add_fact _ _) as [r d].
Qed.

(** C2, as the code has it.  [check_fact] on a fact without start
    time raises [FactError("Missing start time")] and calls nothing;
    otherwise it calls the store's check with the same fact and
    default day, returns [True] and the empty string when the check returns and
    raises the very exception of the check when it raises. *)
Theorem check_fact_contract (fact : nat) (f : Fact) (default_day : option Z)
    (w : world DB) :
  heap w !! fact = Some f ->
  (start_time f = None ->
   check_fact fact default_day w = (Raise (FactError "Missing start time"), w)) /\
  (is_Some (start_time f) ->
   (check_fact fact default_day w).1 =
     match (db_check_fact f default_day (db w)).1 with
     | Return _ => Return (true, EmptyString)
     | Raise e => Raise e
     end /\
   (check_fact fact default_day w).2 =
     with_db (db_check_fact f default_day (db w)).2 w).
Proof.
  intros Hf. unfold check_fact. rewrite Hf. split.
  - intros ->. reflexivity.
  - intros [t0 Ht0]. rewrite Ht0. simpl.
    destruct (db_check_fact f default_day (db w)) as [[u|e] d]; simpl; [done|].
    by destruct e.
Qed.

(** Without a category the client asks the store for the sentinel -1
    and reshapes each row, the category name [None] becoming the
    empty string. *)
Lemma get_category_activities_delegates (w : world DB) :
  (get_category_activities None w).1 =
    match (db_get_category_activities (-1) (db w)).1 with
    | Return rows =>
        Return (map (fun a => [ ("id", r_id a); ("name", r_name a);
                                ("category_id", r_category_id a);
                                ("category", py_or (r_category a) (PStr EmptyString)) ]) rows)
    | Raise e => Raise e
    end.
Proof.
  unfold get_category_activities.
  destruct (db_get_category_activities (-1) (db w)) as [[rows|e] d]; simpl; [|done].
  unfold _to_dict. by rewrite map_map.
Qed.

End AnyStore.

Lemma add_fact_contract_witness :
  add_fact 2 false some_world = (Raise (AssertionError "missing activity"), some_world) /\
  (add_fact 1 false some_world).1 = Return 2 /\
  last (facts (db (add_fact 1 false some_world).2)) = Some (2, set_start_time 720 work_unstarted).
Proof.
  split; [|split].
  - apply (add_fact_contract 2 nameless false some_world); reflexivity.
  - destruct (add_fact_contract 1 work_unstarted false some_world eq_refl) as [_ Hok].
    destruct (Hok eq_refl) as (_ & _ & Hid & _). apply Hid. reflexivity.
  - destruct (add_fact_contract 1 work_unstarted false some_world eq_refl) as [_ Hok].
    destruct (Hok eq_refl) as (_ & -> & _). reflexivity.
Defined.

Lemma add_fact_mutates_argument_witness :
  (heap (add_fact 1 false some_world).2 !! 1%nat ≫= start_time) = Some 720 /\
  heap (add_fact 0 false some_world).2 = heap some_world.
Proof.
  destruct (add_fact_mutates_argument 1 work_unstarted false some_world eq_refl)
    as [Hunset _].
  destruct (add_fact_mutates_argument 0 work false some_world eq_refl)
    as [_ Hset].
  split.
  - apply (Hunset eq_refl 2). reflexivity.
  - apply Hset. by exists 600.
Defined.

Lemma check_fact_contract_witness :
  check_fact 1 None some_world = (Raise (FactError "Missing start time"), some_world) /\
  (check_fact 0 None some_world).1 = Return (true, EmptyString) /\
  (check_fact 3 None some_world).1 = Raise (FactError "end time precedes start time").
Proof.
  split; [|split].
  - apply (check_fact_contract 1 work_unstarted None some_world); reflexivity.
  - destruct (check_fact_contract 0 work None some_world eq_refl) as [_ Hset].
    destruct Hset as [-> _]; [by exists 600 | reflexivity].
  - destruct (check_fact_contract 3 backwards None some_world eq_refl) as [_ Hset].
    destruct Hset as [-> _]; [by exists 600 | reflexivity].
Defined.

(** C2, counterexample.  The reason of the error raised for a fact
    without start time is "Missing start time", with a capital: it is
    not the string "missing start time". *)
Lemma check_fact_reason_differs :
  (check_fact 1 None some_world).1 = Raise (FactError "Missing start time") /\
  (check_fact 1 None some_world).1 <> Raise (FactError "missing start time").
Proof. split; [reflexivity | discriminate]. Qed.

(** C8.  Against the record store of the specification,
    [get_category_activities()] returns, in the store's order, one
    record for each activity whose category is unset and for no other
    activity; a record has the fields id, name, category_id and
    category, in this order, the category being the empty string. *)
Theorem get_category_activities_uncategorized (w : world store) :
  get_category_activities None w =
    (Return (map uncategorized_record
               (filter (fun a => a_category a = None) (activities (db w)))), w).
Proof.
  unfold get_category_activities. simpl. rewrite with_db_same. f_equal. f_equal.
  unfold _to_dict. rewrite !map_map.
  induction (activities (db w)) as [|a l IH]; [done|].
  rewrite !filter_cons. destruct (a_category a) as [c|] eqn:Ha.
  - rewrite !decide_False by discriminate. exact IH.
  - rewrite !decide_True by reflexivity. cbn [map]. f_equal; [|exact IH].
    unfold uncategorized_record, row_of. simpl. by rewrite Ha.
Qed.

Example get_category_activities_sample :
  (get_category_activities None some_world).1 =
    Return [ [ ("id", PInt 2); ("name", PStr "nap");
               ("category_id", PNone); ("category", PStr EmptyString) ];
             [ ("id", PInt 4); ("name", PStr "walk");
               ("category_id", PNone); ("category", PStr EmptyString) ] ].
Proof. reflexivity. Qed.

End StorageSpec.

(** * Further properties of the configuration store *)

Module ConfigMore.
Import MacOSConfigStore ConfigTheory MacPortTest Samples MoreSamples.

(** *** What each call leaves alone *)

Lemma init_settings d objs :
  _settings (__init__ d objs) =
    match file d with
    | Plist m => m ∪ _defaults
    | NoFile | Unreadable => _defaults
    end.
Proof.
  unfold __init__, _load_settings. destruct (file d); [done | done |].
  by rewrite merge_loop_union.
Qed.

Lemma bind_frame key obj prop s :
  _settings (bind key obj prop s) = _settings s /\
  disk (bind key obj prop s) = disk s /\
  emitted (bind key obj prop s) = emitted s.
Proof.
  unfold bind.
  pose proof (get_frame key PNone (log (LogBinding key obj prop) s)) as F.
  destruct (get key PNone _) as [v s']. simpl in *.
  destruct F as (-> & -> & _ & _ & ->). done.
Qed.

Lemma day_start_frame s :
  _settings (day_start s).2 = _settings s /\
  disk (day_start s).2 = disk s /\
  emitted (day_start s).2 = emitted s.
Proof.
  unfold day_start.
  pose proof (get_frame "day-start-minutes" PNone s) as F.
  destruct (get "day-start-minutes" PNone s) as [v s']. simpl in F.
  destruct F as (F1 & F2 & _ & _ & F5).
  destruct (Dt.divmod60 v) as [[]|]; simpl; done.
Qed.

Lemma step_settings s c :
  _settings (step s c) =
    match c with
    | CallSet key value => <[key := value]> (_settings s)
    | _ => _settings s
    end.
Proof.
  destruct c as [key default|key value|key obj prop|]; simpl.
  - apply (get_frame key default s).
  - apply set_settings.
  - apply bind_frame.
  - apply day_start_frame.
Qed.

Lemma step_keeps_keys s c k :
  is_Some (_settings s !! k) -> is_Some (_settings (step s c) !! k).
Proof.
  rewrite step_settings. destruct c; try done.
  intros Hk. destruct (decide (key = k)) as [->|Hne].
  - rewrite lookup_insert_eq. by eexists.
  - by rewrite lookup_insert_ne.
Qed.

Lemma run_keeps_keys calls s k :
  is_Some (_settings s !! k) -> is_Some (_settings (run calls s) !! k).
Proof.
  revert s. induction calls as [|c calls IH]; intros s Hk; [done|].
  simpl. apply IH. by apply step_keeps_keys.
Qed.

Lemma init_has_defaults d objs k :
  is_Some (_defaults !! k) -> is_Some (_settings (__init__ d objs) !! k).
Proof.
  intros Hk. rewrite init_settings. destruct (file d); try done.
  rewrite lookup_union. destruct (m !! k), Hk as [v ->]; by eexists.
Qed.


(** *** Reading *)

(** X1.  A default passed to [get] is returned for a key that is missing
    or holds [None], before any compiled-in default, and this [get]
    leaves the store and the log as they were. *)
Theorem get_prefers_caller_default (key : string) (default : pyval) (s : state) :
  default <> PNone ->
  get key default s =
    (match _settings s !! key with
     | Some PNone | None => default
     | Some v => v
     end, s).
Proof.
  intros Hd. unfold get.
  destruct (_settings s !! key) as [[]|]; simpl; try done; by destruct default.
Qed.

Lemma get_prefers_caller_default_witness :
  let s := (set "day-start-minutes" PNone fresh).2 in
  get "day-start-minutes" (PInt 5) s = (PInt 5, s) /\
  get "day-start-minutes" (PInt 5) fresh = (PInt 330, fresh) /\
  get "unknown" (PStr "x") fresh = (PStr "x", fresh).
Proof.
  split; [|split].
  - apply (get_prefers_caller_default "day-start-minutes" (PInt 5)
             (set "day-start-minutes" PNone fresh).2). discriminate.
  - apply (get_prefers_caller_default "day-start-minutes" (PInt 5) fresh). discriminate.
  - apply (get_prefers_caller_default "unknown" (PStr "x") fresh). discriminate.
Defined.

(** X2.  No call removes a key: a key of the dictionary is still there
    after any sequence of calls, and a store built by [__init__] has
    every key of the defaults from then on. *)
Theorem keys_are_never_removed (calls : list call) (k : string) :
  (forall s, is_Some (_settings s !! k) -> is_Some (_settings (run calls s) !! k)) /\
  (forall d objs, is_Some (_defaults !! k) ->
                  is_Some (_settings (run calls (__init__ d objs)) !! k)).
Proof.
  split.
  - intros s. apply run_keeps_keys.
  - intros d objs Hk. apply run_keeps_keys. by apply init_has_defaults.
Qed.

Lemma keys_are_never_removed_witness :
  is_Some (_settings (run [CallSet "theme" PNone; CallBind "theme" 1 "p"; CallDayStart]
                          customised) !! "theme") /\
  is_Some (_settings (run [CallSet "last-report-folder" PNone]
                          (__init__ (MkDisk Unreadable readonly_attempt) ∅))
             !! "last-report-folder").
Proof.
  split.
  - destruct (keys_are_never_removed
                [CallSet "theme" PNone; CallBind "theme" 1 "p"; CallDayStart] "theme")
      as [Hkept _].
    apply Hkept. vm_compute. eexists. reflexivity.
  - destruct (keys_are_never_removed [CallSet "last-report-folder" PNone]
                "last-report-folder") as [_ Hdefault].
    apply Hdefault. vm_compute. eexists. reflexivity.
Defined.

(** X3.  [set] on one key does not change what [get] answers for any
    other key, with or without a default. *)
Theorem set_leaves_other_keys (key other : string) (value default : pyval) (s : state) :
  other <> key ->
  (get other default (set key value s).2).1 = (get other default s).1.
Proof.
  intros Hne. unfold get. rewrite set_settings, lookup_insert_ne by done.
  destruct (is_None _); [destruct (negb _)|]; done.
Qed.

Lemma set_leaves_other_keys_witness :
  (get "day-start-minutes" PNone
       (set "last-report-folder" (PStr "/tmp") customised).2).1 = PInt 270.
Proof.
  rewrite (set_leaves_other_keys "last-report-folder" "day-start-minutes"
             (PStr "/tmp") PNone customised); [reflexivity | discriminate].
Defined.

(** *** Saving and starting again *)



(** X5.  A [set] whose save fails is lost on the next start: if the
    file could not be opened, a store started afterwards loads what one
    started before the [set] would have loaded; if the dump failed after
    the file was opened, it loads the bare defaults. *)
Theorem failed_save_is_lost_on_restart (key : string) (value : pyval) (s : state)
    (objs : gmap (nat * string) pyval) :
  (attempt (disk s) (<[key := value]> (_settings s)) = OpenFailed ->
   _settings (__init__ (disk (set key value s).2) objs)
     = _settings (__init__ (disk s) objs)) /\
  (attempt (disk s) (<[key := value]> (_settings s)) = DumpFailed ->
   _settings (__init__ (disk (set key value s).2) objs) = _defaults).
Proof.
  split; intros Hw; rewrite !init_settings, set_disk; unfold plist_write;
    rewrite Hw; done.
Qed.

Lemma failed_save_is_lost_on_restart_witness :
  _settings (__init__ (disk (set "day-start-minutes" (PInt 270) readonly).2) ∅)
    !! "day-start-minutes" = Some (PInt 330) /\
  _settings (__init__ (disk (set "theme" PNone customised).2) ∅) = _defaults.
Proof.
  split.
  - destruct (failed_save_is_lost_on_restart "day-start-minutes" (PInt 270) readonly ∅)
      as [Hopen _].
    rewrite Hopen; reflexivity.
  - destruct (failed_save_is_lost_on_restart "theme" PNone customised ∅) as [_ Hdump].
    apply Hdump. reflexivity.
Defined.

(** *** Notifications and the log *)

Lemma step_emitted s c :
  emitted (step s c) =
    emitted s ++ match c with CallSet key value => [(key, value)] | _ => [] end.
Proof.
  destruct c as [key default|key value|key obj prop|]; simpl;
    rewrite ?(right_id_L [] (++)).
  - apply (get_frame key default s).
  - apply set_emitted.
  - apply bind_frame.
  - apply day_start_frame.
Qed.

Lemma step_disk s c : is_set c = false -> disk (step s c) = disk s.
Proof.
  destruct c as [key default|key value|key obj prop|]; simpl; intros Hc.
  - apply (get_frame key default s).
  - discriminate.
  - apply bind_frame.
  - apply day_start_frame.
Qed.

(** X6.  [changed] is published once for each [set], in the order of
    the calls, and by no other call: after any sequence of calls the
    notifications published are those of its [set] calls. *)
Theorem one_notification_per_set (calls : list call) (s : state) :
  emitted (run calls s) = emitted s ++ published calls.
Proof.
  revert s. induction calls as [|c calls IH]; intros s; simpl.
  - by rewrite (right_id_L [] (++)).
  - rewrite IH, step_emitted, <- (assoc_L (++)). f_equal.
    by destruct c.
Qed.

(** X7.  A [set] changes the properties bound to its key, all of them
    to the new value, and no other property. *)
Theorem set_changes_bound_properties (key : string) (value : pyval) (s : state)
    (t : nat * string) :
  ((exists h, h ∈ handlers s /\ h_key h = key /\ (h_obj h, h_prop h) = t) ->
   objects (set key value s).2 !! t = Some value) /\
  ((forall h, h ∈ handlers s -> h_key h = key -> (h_obj h, h_prop h) <> t) ->
   objects (set key value s).2 !! t = objects s !! t).
Proof.
  rewrite set_objects. split.
  - intros (h & Hin & Hk & Ht).
    destruct (existsb _ _) eqn:E; [done|].
    rewrite <- not_true_iff_false, existsb_exists in E. exfalso. apply E.
    exists h. split; [by apply list_elem_of_In|].
    unfold targets. by rewrite !bool_decide_eq_true_2.
  - intros Hnone. destruct (existsb _ _) eqn:E; [|done].
    apply existsb_exists in E as (h & Hin & Ht). exfalso.
    unfold targets in Ht. apply andb_true_iff in Ht as [Hk Ho].
    apply bool_decide_eq_true_1 in Hk. apply bool_decide_eq_true_1 in Ho.
    apply (Hnone h); [by apply list_elem_of_In | done | done].
Qed.

Lemma set_changes_bound_properties_witness :
  let s := bind "day-start-minutes" 2 "start" (bind "day-start-minutes" 1 "minutes" fresh) in
  objects (set "day-start-minutes" (PInt 270) s).2 !! (2%nat, "start") = Some (PInt 270) /\
  objects (set "day-start-minutes" (PInt 270) s).2 !! (1%nat, "minutes") = Some (PInt 270) /\
  objects (set "last-report-folder" (PStr "/tmp") s).2 !! (1%nat, "minutes")
    = objects s !! (1%nat, "minutes").
Proof.
  cbv zeta. split; [|split].
  - apply set_changes_bound_properties.
    exists (OnChanged "day-start-minutes" 2 "start"). split; [|done].
    vm_compute. set_solver.
  - apply set_changes_bound_properties.
    exists (OnChanged "day-start-minutes" 1 "minutes"). split; [|done].
    vm_compute. set_solver.
  - apply set_changes_bound_properties.
    intros h Hh Hk Ht. vm_compute in Hh.
    apply elem_of_cons in Hh as [->|Hh]; [discriminate|].
    apply list_elem_of_singleton in Hh. subst h. discriminate.
Defined.

(** X8.  What [set] sends to the logger: the debug record of the call,
    then the type warning, given only for "day-start-minutes" and a
    value that is neither an integer nor a boolean (any value passes for
    "last-report-folder" and for a key without default), then the
    record of the save or of its failure. *)
Theorem set_log_records (key : string) (value : pyval) (s : state) :
  logged (set key value s).2 =
    logged s ++ [LogSetting key value]
    ++ (if bool_decide (key = "day-start-minutes") && negb (isinstance value TInt)
        then [LogTypeMismatch key TInt (type_of value)] else [])
    ++ [match attempt (disk s) (<[key := value]> (_settings s)) with
        | Written => LogSaved (<[key := value]> (_settings s))
        | OpenFailed | DumpFailed => LogSaveFailed
        end].
Proof.
  rewrite set_logged. rewrite !(assoc_L (++)). f_equal.
  - unfold type_check. rewrite _defaults_lookup.
    destruct (decide (key = "day-start-minutes")) as [->|Hk].
    + simpl. destruct (isinstance value TInt); simpl; [|done].
      by rewrite (right_id_L [] (++)).
    + rewrite (bool_decide_eq_false_2 _ Hk). simpl.
      rewrite (right_id_L [] (++)).
      destruct (decide (key = "last-report-folder")); [|done].
      simpl. by rewrite andb_false_r.
  - unfold plist_write. by destruct (attempt _ _).
Qed.

(** X9.  [day_start] by the value last stored under
    "day-start-minutes": an integer goes through [divmod] and the time
    constructor, a boolean gives 00:00 or 00:01, a stored [None] reads
    as the default and gives 05:30, and a string raises [TypeError]. *)
Theorem day_start_by_stored_value (value : pyval) (s : state) :
  (day_start (set "day-start-minutes" value s).2).1 =
    match value with
    | PNone => Return (Dt.Time 5 30)
    | PBool b => Return (Dt.Time 0 (if b then 1 else 0))
    | PInt z => Dt.mk_time (z `div` 60) (z `mod` 60)
    | PStr _ => Raise (TypeError "unsupported operand type(s) for divmod()")
    end.
Proof.
  unfold day_start.
  pose proof (get_after_set "day-start-minutes" value s) as G.
  destruct (get "day-start-minutes" PNone (set _ _ s).2) as [v s'].
  simpl in G. subst v.
  destruct value as [|[]|z|str]; reflexivity.
Qed.

(** X10.  Only [set] writes: a sequence of calls without [set] leaves
    the dictionary, the file and the notifications as they were. *)
Theorem only_set_writes (calls : list call) (s : state) :
  forallb (fun c => negb (is_set c)) calls = true ->
  _settings (run calls s) = _settings s /\
  disk (run calls s) = disk s /\
  emitted (run calls s) = emitted s.
Proof.
  revert s. induction calls as [|c calls IH]; intros s Hcalls; [done|].
  simpl in Hcalls. apply andb_true_iff in Hcalls as [Hc Hcalls].
  apply negb_true_iff in Hc.
  simpl. destruct (IH (step s c) Hcalls) as (-> & -> & ->).
  rewrite step_settings, step_disk, step_emitted by done.
  destruct c; rewrite ?(right_id_L [] (++)); done.
Qed.

Lemma only_set_writes_witness :
  let calls := [CallGet "theme" PNone; CallBind "theme" 1 "p"; CallDayStart] in
  _settings (run calls readonly) = _settings readonly /\
  disk (run calls readonly) = disk readonly /\
  emitted (run calls readonly) = emitted readonly.
Proof.
  apply (only_set_writes [CallGet "theme" PNone; CallBind "theme" 1 "p"; CallDayStart]
           readonly).
  reflexivity.
Defined.

(** X11.  The last [set] of a key wins, and [set]s of different keys
    may be swapped: the dictionary is the same in both orders. *)
Theorem set_overwrites_and_commutes (k1 k2 : string) (v1 v2 : pyval) (s : state) :
  _settings (set k1 v2 (set k1 v1 s).2).2 = _settings (set k1 v2 s).2 /\
  (k1 <> k2 ->
   _settings (set k2 v2 (set k1 v1 s).2).2 = _settings (set k1 v1 (set k2 v2 s).2).2).
Proof.
  rewrite !set_settings. split.
  - apply insert_insert_eq.
  - intros Hne. by apply insert_insert_ne.
Qed.

Lemma set_overwrites_and_commutes_witness :
  _settings (set "theme" (PStr "light") (set "day-start-minutes" (PInt 0) fresh).2).2
    = _settings (set "day-start-minutes" (PInt 0) (set "theme" (PStr "light") fresh).2).2.
Proof.
  apply (set_overwrites_and_commutes "day-start-minutes" "theme" (PInt 0) (PStr "light") fresh).
  discriminate.
Defined.

End ConfigMore.

(** * Further properties of the storage client *)

Module StorageMore.
Import Storage SpecStore StorageRest Samples MoreSamples.

(** *** Records *)

Lemma field_zip (columns : list string) (row : list pyval) (j : nat) (c : string) :
  NoDup columns -> columns !! j = Some c -> field c (zip columns row) = row !! j.
Proof.
  unfold field. revert row j.
  induction columns as [|c0 cs IH]; intros row j Hnd Hc; [done|].
  apply NoDup_cons in Hnd as [Hc0 Hnd].
  destruct row as [|v0 vs]; [by destruct j|].
  simpl. destruct j as [|j]; simpl in *.
  - injection Hc as ->. apply lookup_insert_eq.
  - rewrite lookup_insert_ne; [by apply IH|].
    intros ->. apply Hc0. by eapply list_elem_of_lookup_2.
Qed.

(** X12.  [_to_dict] gives one record for each row, in order; with
    distinct column names, the field of the j-th column holds the j-th
    value of the row, and is missing if the row has no j-th value. *)
Theorem to_dict_fields (columns : list string) (rows : list (list pyval)) :
  length (_to_dict columns rows) = length rows /\
  (forall i row j c,
      NoDup columns -> rows !! i = Some row -> columns !! j = Some c ->
      exists record, _to_dict columns rows !! i = Some record /\
                     field c record = row !! j).
Proof.
  unfold _to_dict. split; [apply length_map|].
  intros i row j c Hnd Hrow Hc. exists (zip columns row). split.
  - change (map ?f rows) with (f <$> rows). by rewrite list_lookup_fmap, Hrow.
  - by apply field_zip.
Qed.

Lemma to_dict_fields_witness :
  exists record,
    _to_dict ["id"; "name"; "autocomplete"] [[PInt 1; PStr "urgent"]; [PInt 2]] !! 1%nat
      = Some record /\
    field "id" record = Some (PInt 2) /\ field "name" record = None.
Proof.
  destruct (to_dict_fields ["id"; "name"; "autocomplete"] [[PInt 1; PStr "urgent"]; [PInt 2]])
    as [_ Hfield].
  destruct (Hfield 1%nat [PInt 2] 0%nat "id") as (record & Hrec & Hid);
    [exact (bool_decide_eq_true_1 (NoDup ["id"; "name"; "autocomplete"]) eq_refl)
    | reflexivity | reflexivity |].
  exists record. split; [exact Hrec|]. split; [exact Hid|].
  injection Hrec as <-. reflexivity.
Defined.

Section AnyStore.

Context {DB : Type} `{RecordStore DB} `{RecordStoreRest DB}.


(** X13.  The store is never asked for the activities of category 0:
    whatever the argument of [get_category_activities], the id handed to
    the store is not 0, and it is -1 for no argument and for 0 alike.
    [get_activity_by_name] hands 0 on, and hands 0 for no argument. *)
Theorem zero_is_no_category (category_id : option Z) (activity : string)
    (resurrect : bool) (w : world DB) :
  (exists c, c <> 0 /\
             (category_id = Some c \/
              ((category_id = None \/ category_id = Some 0) /\ c = -1)) /\
             (get_category_activities category_id w).2
               = with_db (db_get_category_activities c (db w)).2 w) /\
  (exists c, (category_id = Some c \/ (category_id = None /\ c = 0)) /\
             get_activity_by_name activity category_id resurrect w
               = through id (db_get_activity_by_name activity c resurrect (db w)) w).
Proof.
  split.
  - unfold get_category_activities.
    destruct category_id as [c|]; [destruct (Z.eqb_spec c 0) as [->|Hc]|].
    + exists (-1). split; [done|]. split; [right; split; [by right | done]|].
      by destruct (db_get_category_activities _ _) as [[]].
    + exists c. split; [done|]. split; [by left|].
      by destruct (db_get_category_activities _ _) as [[]].
    + exists (-1). split; [done|]. split; [right; split; [by left | done]|].
      by destruct (db_get_category_activities _ _) as [[]].
  - unfold get_activity_by_name.
    destruct category_id as [c|]; [|exists 0; split; [by right | done]].
    exists c. split; [by left|]. by destruct (Z.eqb_spec c 0) as [->|].
Qed.

(** Closes a goal [c ∉ l] for a name [c] and a list [l] of other names. *)
Ltac not_a_column :=
  let Hin := fresh "Hin" in
  simpl; intros Hin;
  repeat (apply elem_of_cons in Hin as [Hin|Hin]; [discriminate|]);
  by apply elem_of_nil in Hin.

Lemma text_category (fields : list (string * pyval)) (a : pyval) :
  "category" ∉ fields.*1 ->
  has_text_category (fields ++ [("category", py_or a (PStr EmptyString))]).
Proof.
  intros Hfresh. exists (py_or a (PStr EmptyString)). split.
  - unfold field. rewrite list_to_map_app, lookup_union_r.
    + apply lookup_insert_eq.
    + by apply not_elem_of_list_to_map_1.
  - unfold py_or. destruct (truthy a) eqn:E; [|split; [done | by left]].
    split; [by destruct a | by right].
Qed.

(** X14.  The [category] of a record that [get_activities] or
    [get_category_activities] returns is never [None]: where the store
    has no category name, the record has the empty string. *)
Theorem category_is_never_None (search : string) (category_id : option Z) (w : world DB) :
  match (get_activities search w).1 with
  | Return records => Forall has_text_category records
  | Raise _ => True
  end /\
  match (get_category_activities category_id w).1 with
  | Return records => Forall has_text_category records
  | Raise _ => True
  end.
Proof.
  split.
  - unfold get_activities, through.
    destruct (db_get_activities search (db w)) as [[rows|e] d]; simpl; [|done].
    unfold _to_dict. rewrite map_map. apply Forall_forall. intros r Hr.
    apply list_elem_of_In, in_map_iff in Hr as (a & <- & _).
    apply (text_category [("name", ah_name a)]). not_a_column.
  - unfold get_category_activities.
    destruct (db_get_category_activities _ (db w)) as [[rows|e] d]; simpl; [|done].
    unfold _to_dict. rewrite map_map. apply Forall_forall. intros r Hr.
    apply list_elem_of_In, in_map_iff in Hr as (a & <- & _).
    apply (text_category [("id", r_id a); ("name", r_name a);
                          ("category_id", r_category_id a)]).
    not_a_column.
Qed.

(** *** Fact objects *)






(** X16.  A second [add_fact] on the same object uses the start time
    the first one gave it, whatever the first call's end and whatever
    the clock reads by then; it changes no object and logs nothing. *)
Theorem add_fact_again_keeps_start_time (fact : nat) (f : Fact) (t t' : bool)
    (later : Z) (w : world DB) :
  heap w !! fact = Some f ->
  truthy_str (activity f) = true ->
  start_time f = None ->
  let w1 := (add_fact fact t w).2 in
  let w2 := MkWorld (heap w1) (db w1) later (Storage.logged w1) in
  (add_fact fact t' w2).1 = (db_add_fact (set_start_time (clock w) f) (db w1)).1 /\
  heap (add_fact fact t' w2).2 = heap w1 /\
  Storage.logged (add_fact fact t' w2).2 = Storage.logged w1.
Proof.
  intros Hf Ha Hs w1 w2.
  assert (Hheap : heap w2 !! fact = Some (set_start_time (clock w) f)).
  { unfold w2, w1. simpl.
    rewrite (StorageSpec.add_fact_mutates_before_store fact f t w Hf Ha Hs).
    apply lookup_insert_eq. }
  unfold add_fact. rewrite Hheap. simpl. rewrite Ha. simpl.
  by destruct (db_add_fact _ _).
Qed.

End AnyStore.

Lemma add_fact_again_keeps_start_time_witness :
  let w1 := (add_fact 0 false retry_world).2 in
  let w2 := MkWorld (heap w1) (db w1) 800 (Storage.logged w1) in
  (add_fact 0 false retry_world).1 = Raise (FactError "end time precedes start time") /\
  (add_fact 0 false w2).1 = Raise (FactError "end time precedes start time") /\
  (heap (add_fact 0 false w2).2 !! 0%nat ≫= start_time) = Some 720.
Proof.
  cbv zeta. split; [reflexivity|].
  destruct (add_fact_again_keeps_start_time 0 ends_early false false 800 retry_world
              eq_refl eq_refl eq_refl) as (Hres & Hheap & _).
  split.
  - rewrite Hres. reflexivity.
  - rewrite Hheap. reflexivity.
Defined.

End StorageMore.

(** * Properties of the test script *)

Module TestMore.
Import MacOSConfigStore ConfigTheory MacPortTest Samples MoreSamples.

(** *** [test_config_operations] *)


Lemma get_reads_settings key default s s' :
  _settings s = _settings s' -> (get key default s).1 = (get key default s').1.
Proof.
  unfold get. intros <-. destruct (is_None _); [destruct (negb _)|]; done.
Qed.







(** *** [main] *)

Section Main.

Context {W : Type}.

Lemma count_cons (r : outcome unit) (rs : list (outcome unit)) :
  count_returned (r :: rs) = (if returned r then 1 else 0) + count_returned rs /\
  count_raised (r :: rs) = (if returned r then 0 else 1) + count_raised rs.
Proof.
  unfold count_returned, count_raised. rewrite !filter_cons.
  destruct r as [u|e]; simpl; lia.
Qed.

Lemma loop_counts (tests : list (string * (W -> outcome unit * W)))
    (passed failed : Z) (w : W) (out : list printed) :
  let r := foldl run_test (passed, failed, w, out) tests in
  r.1.1.1 = passed + count_returned (outcomes tests w) /\
  r.1.1.2 = failed + count_raised (outcomes tests w).
Proof.
  revert passed failed w out.
  induction tests as [|t tests IH]; intros passed failed w out.
  - cbv zeta. unfold count_returned, count_raised. simpl. lia.
  - cbv zeta. cbn [foldl outcomes].
    destruct (count_cons (t.2 w).1 (outcomes tests (t.2 w).2)) as [-> ->].
    unfold run_test at 2 4. destruct (t.2 w) as [[u|e] w']; simpl.
    + destruct (IH (passed + 1) failed w' (out ++ [PrintRunning t.1])) as [-> ->]. lia.
    + destruct (IH passed (failed + 1) w'
                  (out ++ [PrintRunning t.1; PrintTestFailed e])) as [-> ->]. lia.
Qed.

Lemma count_raised_zero (rs : list (outcome unit)) :
  (count_raised rs =? 0) = forallb returned rs.
Proof.
  induction rs as [|r rs IH]; [done|].
  destruct (count_cons r rs) as [_ ->]. simpl.
  destruct r as [u|e]; simpl; [exact IH|].
  apply Z.eqb_neq. unfold count_raised. lia.
Qed.

(** X20.  [main] runs every test, whatever the earlier ones did: the
    counts it prints last are those of the tests that returned and of
    the tests that raised, they add up to the number of tests, and the
    exit status is 0 exactly when no test raised. *)
Theorem main_counts_every_test (tests : list (string * (W -> outcome unit * W))) (w : W) :
  let r := main tests w in
  let rs := outcomes tests w in
  r.1.1 = (if forallb returned rs then 0 else 1) /\
  last r.2 = Some (PrintResults (count_returned rs) (count_raised rs)) /\
  count_returned rs + count_raised rs = Z.of_nat (length tests) /\
  length rs = length tests.
Proof.
  cbv zeta. unfold main.
  pose proof (loop_counts tests 0 0 w []) as L. cbv zeta in L.
  destruct (foldl run_test (0, 0, w, []) tests) as [[[passed failed] w'] out].
  simpl in L. destruct L as [-> ->]. simpl.
  rewrite !Z.add_0_l, count_raised_zero, last_snoc.
  split; [done|]. split; [done|].
  clear. revert w. induction tests as [|t tests IH]; intros w; [done|].
  cbn [outcomes length]. destruct (count_cons (t.2 w).1 (outcomes tests (t.2 w).2)) as [-> ->].
  destruct (IH (t.2 w).2) as [Hsum ->]. split; [|done].
  destruct (returned _); lia.
Qed.

End Main.

(** The configuration test under [main]: status 1 once the user has
    changed the start of the day. *)
Example main_on_customised_store :
  let tests := [("Config Operations", fun s => (test_config_operations s).1)] in
  (main tests fresh).1.1 = 0 /\ (main tests customised).1.1 = 1.
Proof. split; reflexivity. Qed.

End TestMore.
